(** * The detection store of [db_service]

    A shallow embedding of [src/db_service/models.py] and
    [src/db_service/main.py]: the [Detection] table, the request models
    [BoundingBox], [ObjectInfo] and [DetectionCreate], and the three
    handlers [create_detection], [get_detections] and
    [update_gemini_analysis], with the database session they are given
    written as explicit state passing. *)

From Stdlib Require Import ZArith String.
From Stdlib Require Import Floats.PrimFloat.
From stdpp Require Import base tactics option list strings.

Local Open Scope string_scope.
Local Open Scope list_scope.
Local Set Warnings "-register-all,-inexact-float".

(** ** Values

    A Python [float] is an IEEE 754 binary64, that is a primitive float.
    A JSON value is what the [json] module hands to Python: [None], a
    bool, a number (taken as a [float]), a [str], a [list] or a [dict].  A
    [dict] is an association list in the order its keys were inserted; the
    handlers only ever build dicts with distinct keys. *)

Inductive json : Type :=
| JNull
| JBool (b : bool)
| JNumber (f : float)
| JString (s : string)
| JArray (l : list json)
| JObject (o : list (string * json)).

(** [d.get(k)]: the value of key [k]. *)
Fixpoint dict_get (k : string) (o : list (string * json)) : option json :=
  match o with
  | [] => None
  | (k', v) :: o' => if String.eqb k k' then Some v else dict_get k o'
  end.

(** [list(d.keys())]. *)
Definition dict_keys (o : list (string * json)) : list string := o.*1.

(** Python's truth value of an object, as [if v] and [not v] test it. *)
Definition truthy (v : json) : bool :=
  match v with
  | JNull => false
  | JBool b => b
  | JNumber f => negb (PrimFloat.eqb f 0%float)
  | JString s => negb (String.eqb s "")
  | JArray l => negb (bool_decide (length l = 0))
  | JObject o => negb (bool_decide (length o = 0))
  end.

(** ** Exceptions

    The exceptions the handlers can meet, each with the text [str(e)]
    gives.  [SQLAlchemyError] stands for any error the database layer
    raises; the text of a [ValidationError] stands for the library's
    report, of which only the model and the field are kept. *)

Inductive exn : Type :=
| ValidationError (model loc : string)
| TypeError (msg : string)
| ValueError (msg : string)
| SQLAlchemyError (msg : string).

Definition str (e : exn) : string :=
  match e with
  | ValidationError model loc => "validation error for " +:+ model +:+ ": " +:+ loc
  | TypeError msg => msg
  | ValueError msg => msg
  | SQLAlchemyError msg => msg
  end.

(** A computation that returns a value or raises. *)
Definition result (A : Type) : Type := exn + A.

Definition rbind {A B : Type} (m : result A) (k : A -> result B) : result B :=
  match m with
  | inl e => inl e
  | inr a => k a
  end.

Declare Scope result_scope.
Delimit Scope result_scope with result.
Notation "'let/r' x := m 'in' k" := (rbind m (fun x => k))
  (at level 10, x name, m at level 100, k at level 200) : result_scope.

(** A list comprehension whose body can raise: the elements are built
    left to right and the first exception ends it. *)
Fixpoint comprehension {A B : Type} (f : A -> result B) (l : list A)
  : result (list B) :=
  match l with
  | [] => inr []
  | x :: l' =>
      (let/r y := f x in
       let/r ys := comprehension f l' in
       inr (y :: ys))%result
  end.

(** Unpacking a value into keyword arguments (the double-star call
    syntax): the value must be a mapping. *)
Definition kwargs (v : json) : result (list (string * json)) :=
  match v with
  | JObject o => inr o
  | _ => inl (TypeError "argument after ** must be a mapping")
  end.

(** [for x in v]: a list yields its elements, a str its characters, a
    dict its keys; anything else is not iterable. *)
Definition iter (v : json) : result (list json) :=
  match v with
  | JArray l => inr l
  | JString s =>
      inr ((fun c => JString (String c EmptyString)) <$> list_ascii_of_string s)
  | JObject o => inr (JString <$> dict_keys o)
  | _ => inl (TypeError "object is not iterable")
  end.

(** ** The validation library's field validators

    The models of [main.py] declare their fields [str] and [float], and a
    nested model is given as a mapping.  What the library does with a
    value of another kind (it may coerce a numeric string to a float, or
    a number to a str) is the library's business and differs between its
    versions, so the validators are an interface; the development only
    relies on a value that already has the declared type being accepted
    unchanged. *)

Class FieldValidators : Type := {
  str_validator : json -> option string;
  float_validator : json -> option float;
  dict_validator : json -> option (list (string * json));
  str_validator_str : forall s, str_validator (JString s) = Some s;
  float_validator_float : forall f, float_validator (JNumber f) = Some f;
  dict_validator_dict : forall o, dict_validator (JObject o) = Some o;
}.

(** The validators that coerce nothing. *)
Definition strict_str (v : json) : option string :=
  match v with JString s => Some s | _ => None end.
Definition strict_float (v : json) : option float :=
  match v with JNumber f => Some f | _ => None end.
Definition strict_dict (v : json) : option (list (string * json)) :=
  match v with JObject o => Some o | _ => None end.

#[export] Instance strict_validators : FieldValidators := {|
  str_validator := strict_str;
  float_validator := strict_float;
  dict_validator := strict_dict;
  str_validator_str := fun _ => eq_refl;
  float_validator_float := fun _ => eq_refl;
  dict_validator_dict := fun _ => eq_refl;
|}.

(** ** The request models of [main.py] *)

Module BoundingBox.
Record t : Type := mk { x : float; y : float; width : float; height : float }.
End BoundingBox.

Module ObjectInfo.
(** [class_name] has the alias [class]. *)
Record t : Type := mk { class_name : string; bbox : list float }.
End ObjectInfo.

Module DetectionCreate.
Record t : Type := mk {
  object_class : string;
  confidence : float;
  bbox : BoundingBox.t;
  objects : option (list ObjectInfo.t);
  gemini_analysis : string;
}.
End DetectionCreate.

(** ** The table of [models.py]

    [id] and [timestamp] are [None] on an instance that has not been
    inserted yet; [bbox] and [objects] are JSON columns. *)

Module Detection.
Record t : Type := mk {
  id : option Z;
  timestamp : option Z;
  object_class : string;
  confidence : float;
  bbox : json;
  objects : json;
  gemini_analysis : string;
}.
End Detection.

(** [Detection(object_class=..., confidence=..., bbox=..., objects=...,
    gemini_analysis=...)]: a new instance, the two server-side columns
    unset. *)
Definition Detection (object_class : string) (confidence : float)
    (bbox objects : json) (gemini_analysis : string) : Detection.t :=
  Detection.mk None None object_class confidence bbox objects gemini_analysis.

(** ** Models to dicts *)

(** [b.dict()]. *)
Definition BoundingBox_dict (b : BoundingBox.t) : json :=
  JObject [ ("x", JNumber (BoundingBox.x b));
            ("y", JNumber (BoundingBox.y b));
            ("width", JNumber (BoundingBox.width b));
            ("height", JNumber (BoundingBox.height b)) ].

(** [obj.dict(by_alias=...)]: with [by_alias] the key of [class_name] is
    its alias. *)
Definition ObjectInfo_dict (by_alias : bool) (obj : ObjectInfo.t) : json :=
  JObject [ (if by_alias then "class" else "class_name",
             JString (ObjectInfo.class_name obj));
            ("bbox", JArray (JNumber <$> ObjectInfo.bbox obj)) ].

(** The body of a response declared with [response_model=DetectionCreate]:
    the framework serialises the model by alias, [None] as [null]. *)
Definition DetectionCreate_json (d : DetectionCreate.t) : json :=
  JObject [ ("object_class", JString (DetectionCreate.object_class d));
            ("confidence", JNumber (DetectionCreate.confidence d));
            ("bbox", BoundingBox_dict (DetectionCreate.bbox d));
            ("objects",
             match DetectionCreate.objects d with
             | None => JNull
             | Some objs => JArray (ObjectInfo_dict true <$> objs)
             end);
            ("gemini_analysis", JString (DetectionCreate.gemini_analysis d)) ].

(** A JSON value the framework can render: every number in it is
    finite.  ([json.dumps] is called with [allow_nan=False].) *)
Fixpoint json_finite (v : json) : bool :=
  match v with
  | JNumber f => PrimFloat.is_finite f
  | JArray l => forallb json_finite l
  | JObject o => forallb (fun kv => json_finite kv.2) o
  | _ => true
  end.

(** The rendering of a response body: an infinity or a NaN raises
    [ValueError]. *)
Definition render (v : json) : result json :=
  if json_finite v then inr v
  else inl (ValueError "Out of range float values are not JSON compliant").

(** ** Dicts and request bodies to models *)

Section Validation.
Context {V : FieldValidators}.

(** A required field [name] of [model], read under [key] and checked
    by [validate]. *)
Definition field {A : Type} (model key : string) (validate : json -> option A)
    (o : list (string * json)) : result A :=
  match dict_get key o with
  | None => inl (ValidationError model (key +:+ ": field required"))
  | Some v =>
      match validate v with
      | None => inl (ValidationError model (key +:+ ": value is not valid"))
      | Some a => inr a
      end
  end.

(** A value for a field declared [List[float]]. *)
Definition list_float_validator (v : json) : option (list float) :=
  match v with
  | JArray l => mapM float_validator l
  | _ => None
  end.

(** [BoundingBox(x=..., y=..., width=..., height=...)] from keyword
    arguments; a key that is no field is ignored. *)
Definition BoundingBox_init (o : list (string * json)) : result BoundingBox.t :=
  (let/r x := field "BoundingBox" "x" float_validator o in
   let/r y := field "BoundingBox" "y" float_validator o in
   let/r width := field "BoundingBox" "width" float_validator o in
   let/r height := field "BoundingBox" "height" float_validator o in
   inr (BoundingBox.mk x y width height))%result.

(** [ObjectInfo(...)] from keyword arguments: [class_name] is only
    read under its alias (the class sets no population by field
    name). *)
Definition ObjectInfo_init (o : list (string * json)) : result ObjectInfo.t :=
  (let/r class_name := field "ObjectInfo" "class" str_validator o in
   let/r bbox := field "ObjectInfo" "bbox" list_float_validator o in
   inr (ObjectInfo.mk class_name bbox))%result.

(** A value given for a field whose type is a model. *)
Definition model_validator {A : Type} (init : list (string * json) -> result A)
    (v : json) : option A :=
  match dict_validator v with
  | None => None
  | Some o => match init o with inl _ => None | inr a => Some a end
  end.

(** A value for [objects : Optional[List[ObjectInfo]]]. *)
Definition objects_validator (v : json) : option (option (list ObjectInfo.t)) :=
  match v with
  | JNull => Some None
  | JArray l => Some <$> mapM (model_validator ObjectInfo_init) l
  | _ => None
  end.

(** [DetectionCreate] read from a request body; [objects] has the
    default [None]. *)
Definition DetectionCreate_parse (body : json) : result DetectionCreate.t :=
  match dict_validator body with
  | None => inl (ValidationError "DetectionCreate" "value is not a valid dict")
  | Some o =>
      (let/r object_class := field "DetectionCreate" "object_class" str_validator o in
       let/r confidence := field "DetectionCreate" "confidence" float_validator o in
       let/r bbox :=
         field "DetectionCreate" "bbox" (model_validator BoundingBox_init) o in
       let/r objects :=
         match dict_get "objects" o with
         | None => inr None
         | Some _ => field "DetectionCreate" "objects" objects_validator o
         end in
       let/r gemini_analysis :=
         field "DetectionCreate" "gemini_analysis" str_validator o in
       inr (DetectionCreate.mk object_class confidence bbox objects
              gemini_analysis))%result
  end.

End Validation.

(** ** The database

    [database.py], which gives [main.py] its [engine] and [get_db], is
    not among the sources, and the session it yields belongs to the ORM.
    What the handlers need of them is modelled here. *)

(** Modelled from the spec: the calls a handler makes on its session
    ([db.add], [db.commit], [db.refresh], [db.query]), each of which is a
    place where a store failure can be raised. *)
Inductive db_op : Type := db_add | db_commit | db_refresh | db_query.

(** Modelled from the spec: what a request finds outside the program, the
    clock read by [default=datetime.utcnow] and, for each call on the
    session, the message of the store failure it raises, if it raises
    one. *)
Record Env : Type := { utcnow : Z; fault : db_op -> option string }.

(** Modelled from the spec: the stored rows of the [detections] table in
    primary-key order, which is insertion order, and the next value of the
    auto-incremented [id]. *)
Record Store : Type := { rows : list Detection.t; next_id : Z }.

(** Modelled from the spec: a write the session holds until it commits,
    an instance given to [db.add], or an attribute [gemini_analysis] set
    on the loaded instance with primary key [pk]. *)
Inductive change : Type :=
| Insert (d : Detection.t)
| SetGeminiAnalysis (pk : option Z) (analysis : string).

(** Modelled from the spec: the scoped unit of work of one request, the
    committed store and the writes still pending. *)
Record Session : Type := { store : Store; pending : list change }.

(** A computation on the session: it returns or raises, and leaves the
    session as it is on either way out. *)
Definition M (A : Type) : Type := Session -> result A * Session.

Definition ret {A : Type} (a : A) : M A := fun db => (inr a, db).

Definition bind {A B : Type} (m : M A) (k : A -> M B) : M B :=
  fun db =>
    match m db with
    | (inl e, db') => (inl e, db')
    | (inr a, db') => k a db'
    end.

Definition lift {A : Type} (r : result A) : M A := fun db => (r, db).

Declare Scope session_scope.
Delimit Scope session_scope with session.
Notation "'let/m' x := m 'in' k" := (bind m (fun x => k))
  (at level 10, x name, m at level 100, k at level 200) : session_scope.

(** A call on the session that the environment makes fail. *)
Definition guarded {A : Type} (env : Env) (op : db_op) (m : M A) : M A :=
  fun db =>
    match fault env op with
    | Some msg => (inl (SQLAlchemyError msg), db)
    | None => m db
    end.

(** Modelled from the spec: [db.add(instance)]. *)
Definition add (env : Env) (instance : Detection.t) : M unit :=
  guarded env db_add
    (fun db => (inr tt, {| store := store db;
                           pending := pending db ++ [Insert instance] |})).

(** Modelled from the spec: one pending write applied to the table.  An
    insert assigns the next [id] and the creation [timestamp] and puts the
    row last; an attribute set on a loaded instance updates the row of its
    primary key. *)
Definition flush (env : Env) (s : Store) (c : change) : Store :=
  match c with
  | Insert d =>
      {| rows := rows s ++
                 [Detection.mk (Some (next_id s)) (Some (utcnow env))
                    (Detection.object_class d) (Detection.confidence d)
                    (Detection.bbox d) (Detection.objects d)
                    (Detection.gemini_analysis d)];
         next_id := (next_id s + 1)%Z |}
  | SetGeminiAnalysis pk analysis =>
      {| rows :=
           (fun r =>
              if bool_decide (Detection.id r = pk)
              then Detection.mk (Detection.id r) (Detection.timestamp r)
                     (Detection.object_class r) (Detection.confidence r)
                     (Detection.bbox r) (Detection.objects r) analysis
              else r) <$> rows s;
         next_id := next_id s |}
  end.

(** Modelled from the spec: [db.commit()], all pending writes or, on a
    store failure, none of them. *)
Definition commit (env : Env) : M unit :=
  guarded env db_commit
    (fun db => (inr tt, {| store := foldl (flush env) (store db) (pending db);
                           pending := [] |})).

(** Modelled from the spec: [db.refresh(instance)], a read of the
    instance's row; its result is not used by the handlers. *)
Definition refresh (env : Env) (instance : Detection.t) : M unit :=
  guarded env db_refresh (fun db => (inr tt, db)).

(** Modelled from the spec: [db.rollback()], which drops the pending
    writes and does not raise. *)
Definition rollback (db : Session) : Session :=
  {| store := store db; pending := [] |}.

(** Modelled from the spec:
    [db.query(Detection).offset(skip).limit(limit).all()], the rows in
    storage order.  A negative offset counts as none and a negative limit
    as no limit. *)
Definition query_offset_limit_all (env : Env) (skip limit : Z)
  : M (list Detection.t) :=
  guarded env db_query
    (fun db =>
       let after := drop (Z.to_nat skip) (rows (store db)) in
       (inr (if (limit <? 0)%Z then after else take (Z.to_nat limit) after), db)).

(** Modelled from the spec:
    [db.query(Detection).filter(Detection.id == detection_id).first()]. *)
Definition query_filter_id_first (env : Env) (detection_id : Z)
  : M (option Detection.t) :=
  guarded env db_query
    (fun db =>
       (inr (List.find (fun r => bool_decide (Detection.id r = Some detection_id))
               (rows (store db))), db)).

(** Modelled from the spec: [instance.gemini_analysis = analysis] on an
    instance loaded by the session, written at the next commit. *)
Definition set_gemini_analysis (instance : Detection.t) (analysis : string)
  : M unit :=
  fun db => (inr tt, {| store := store db;
                        pending := pending db ++
                                   [SetGeminiAnalysis (Detection.id instance) analysis] |}).

(** ** The handlers of [main.py] *)

(** How a handler ends: it returns, it raises [HTTPException], or an
    exception leaves it uncaught. *)
Inductive outcome (A : Type) : Type :=
| Return (a : A)
| HTTPException (status_code : Z) (detail : string)
| Unhandled (e : exn).
Arguments Return {A} a.
Arguments HTTPException {A} status_code detail.
Arguments Unhandled {A} e.

(** The truth value of an optional list: [None] and [[]] are false. *)
Definition truthy_list {A : Type} (l : option (list A)) : bool :=
  match l with
  | Some (_ :: _) => true
  | _ => false
  end.

Section Handlers.
Context {V : FieldValidators}.

(** The stored form of [detection.objects]:
    [[obj.dict(by_alias=True) for obj in detection.objects]
     if detection.objects else None]. *)
Definition objects_column (objects : option (list ObjectInfo.t)) : json :=
  if truthy_list objects
  then JArray (ObjectInfo_dict true <$> default [] objects)
  else JNull.

(** [create_detection], lines 47-63. *)
Definition create_detection (env : Env) (detection : DetectionCreate.t)
    (db : Session) : outcome DetectionCreate.t * Session :=
  let try : M DetectionCreate.t :=
    (let db_detection :=
       Detection (DetectionCreate.object_class detection)
         (DetectionCreate.confidence detection)
         (BoundingBox_dict (DetectionCreate.bbox detection))
         (objects_column (DetectionCreate.objects detection))
         (DetectionCreate.gemini_analysis detection) in
     let/m _ := add env db_detection in
     let/m _ := commit env in
     let/m _ := refresh env db_detection in
     ret detection)%session in
  match try db with
  | (inr r, db') => (Return r, db')
  | (inl e, db') => (HTTPException 500 (str e), rollback db')
  end.

(** The model rebuilt from one row, the body of the comprehension of
    [get_detections]. *)
Definition DetectionCreate_of_row (d : Detection.t) : result DetectionCreate.t :=
  (let/r bbox := (let/r kw := kwargs (Detection.bbox d) in BoundingBox_init kw) in
   let/r objects :=
     (if truthy (Detection.objects d)
      then
        let/r objs := iter (Detection.objects d) in
        let/r l := comprehension
                     (fun obj => let/r kw := kwargs obj in ObjectInfo_init kw) objs in
        inr (Some l)
      else inr None) in
   inr (DetectionCreate.mk (Detection.object_class d) (Detection.confidence d)
          bbox objects (Detection.gemini_analysis d)))%result.

(** [get_detections], lines 65-80. *)
Definition get_detections (env : Env) (skip limit : Z) (db : Session)
  : outcome (list DetectionCreate.t) * Session :=
  let try : M (list DetectionCreate.t) :=
    (let/m detections := query_offset_limit_all env skip limit in
     lift (comprehension DetectionCreate_of_row detections))%session in
  match try db with
  | (inr r, db') => (Return r, db')
  | (inl e, db') => (HTTPException 500 (str e), db')
  end.

(** [update_gemini_analysis], lines 82-90.  Nothing here is inside a
    [try]: an exception of the session leaves the handler. *)
Definition update_gemini_analysis (env : Env) (detection_id : Z)
    (analysis : string) (db : Session) : outcome json * Session :=
  match query_filter_id_first env detection_id db with
  | (inl e, db') => (Unhandled e, db')
  | (inr None, db') => (HTTPException 404 "Detection not found", db')
  | (inr (Some detection), db') =>
      match (let/m _ := set_gemini_analysis detection analysis in
             commit env)%session db' with
      | (inl e, db'') => (Unhandled e, db'')
      | (inr _, db'') => (Return (JObject [("status", JString "success")]), db'')
      end
  end.

(** ** The routes *)

(** Modelled from the spec: [Depends(get_db)], a session opened on the
    store for the one request and closed on every way out; closing it
    drops what was not committed. *)
Definition get_db {A : Type} (handler : Session -> outcome A * Session)
    (s : Store) : outcome A * Store :=
  let '(r, db) := handler {| store := s; pending := [] |} in (r, store db).

(** [POST /detections/]: the framework validates the body against the
    parameter's model and answers 422 itself, without calling the handler,
    when that fails.  What the handler returns is rendered after the
    handler, and the session, are done: an exception of the rendering is
    caught by nothing, and the row stays committed. *)
Definition post_detections (env : Env) (body : json) (s : Store)
  : outcome json * Store :=
  match DetectionCreate_parse body with
  | inl e => (HTTPException 422 (str e), s)
  | inr detection =>
      let '(r, s') := get_db (create_detection env detection) s in
      (match r with
       | Return d =>
           match render (DetectionCreate_json d) with
           | inr body => Return body
           | inl e => Unhandled e
           end
       | HTTPException c m => HTTPException c m
       | Unhandled e => Unhandled e
       end, s')
  end.

End Handlers.

(** ** Reachable stores *)

(** Lines 13-14 of [main.py]: the table is dropped and created again
    when the service starts. *)
Definition initial_store : Store := {| rows := []; next_id := 1 |}.

(** The stores the service can be in: what a sequence of create and
    update requests, failed ones included, leaves of the initial store.
    ([get_detections] writes nothing.) *)
Inductive reachable : Store -> Prop :=
| reachable_initial : reachable initial_store
| reachable_create env detection s :
    reachable s -> reachable (get_db (create_detection env detection) s).2
| reachable_update env detection_id analysis s :
    reachable s ->
    reachable (get_db (update_gemini_analysis env detection_id analysis) s).2.

(** The row [create_detection] hands to the session. *)
Definition new_row (detection : DetectionCreate.t) : Detection.t :=
  Detection (DetectionCreate.object_class detection)
    (DetectionCreate.confidence detection)
    (BoundingBox_dict (DetectionCreate.bbox detection))
    (objects_column (DetectionCreate.objects detection))
    (DetectionCreate.gemini_analysis detection).

(** A record as the store gives it back: an empty [objects] has become
    [None]. *)
Definition stored (d : DetectionCreate.t) : DetectionCreate.t :=
  DetectionCreate.mk (DetectionCreate.object_class d)
    (DetectionCreate.confidence d) (DetectionCreate.bbox d)
    (if truthy_list (DetectionCreate.objects d)
     then DetectionCreate.objects d else None)
    (DetectionCreate.gemini_analysis d).

(** The shape [create_detection] gives the two JSON columns. *)
Definition row_ok (r : Detection.t) : Prop :=
  (exists b, Detection.bbox r = BoundingBox_dict b) /\
  (exists objs, Detection.objects r = objects_column objs).


(** The records of the table in storage order, each as [get_detections]
    rebuilds it from its row. *)
Definition records {V : FieldValidators} (s : Store) : list DetectionCreate.t :=
  omap (fun r => match DetectionCreate_of_row r with
                 | inr d => Some d
                 | inl _ => None
                 end) (rows s).

(** [d] with another [object_class]. *)
Definition with_object_class (c : string) (d : DetectionCreate.t)
  : DetectionCreate.t :=
  DetectionCreate.mk c (DetectionCreate.confidence d) (DetectionCreate.bbox d)
    (DetectionCreate.objects d) (DetectionCreate.gemini_analysis d).

(** The value of key [k] of a JSON object. *)
Definition json_get (k : string) (v : json) : option json :=
  match v with
  | JObject o => dict_get k o
  | _ => None
  end.


(** ** Sample environments and requests *)

(** An environment in which the store does not fail. *)
Definition quiet (now : Z) : Env := {| utcnow := now; fault := fun _ => None |}.

(** An environment in which the call [op] on the session raises [msg]. *)
Definition failing (now : Z) (op : db_op) (msg : string) : Env :=
  {| utcnow := now;
     fault := fun op' =>
       match op, op' with
       | db_add, db_add | db_commit, db_commit
       | db_refresh, db_refresh | db_query, db_query => Some msg
       | _, _ => None
       end |}.

(** The detection of the spec's concrete scenario. *)
Definition car : DetectionCreate.t :=
  DetectionCreate.mk "car" 0.92%float (BoundingBox.mk 10 20 30 40)
    (Some [ObjectInfo.mk "wheel" [1; 2; 3; 4]%float]) "a red car".

(** A whole-scene record, without objects. *)
Definition scene : DetectionCreate.t :=
  DetectionCreate.mk "scene" 1%float (BoundingBox.mk 0 0 640 480) None
    "an empty street".

(** A record whose list of objects is empty. *)
Definition lone : DetectionCreate.t :=
  DetectionCreate.mk "cat" 0.5%float (BoundingBox.mk 1 2 3 4) (Some [])
    "a cat".

(** The store after [car] was created at time 100. *)
Definition car_store : Store :=
  (get_db (create_detection (quiet 100) car) initial_store).2.


(** A request body without [confidence]. *)
Definition no_confidence_body : list (string * json) :=
  [ ("object_class", JString "car");
    ("bbox", JObject [("x", JNumber 1); ("y", JNumber 2);
                      ("width", JNumber 3); ("height", JNumber 4)]);
    ("gemini_analysis", JString "a red car") ].

(** ** Request bodies the models refuse *)

Section Invalid.
Context {V : FieldValidators}.

(** The dict [o] has no key [k], or [validate] refuses its value. *)
Definition lacks {A : Type} (validate : json -> option A) (k : string)
    (o : list (string * json)) : Prop :=
  match dict_get k o with
  | None => True
  | Some v => validate v = None
  end.

(** A body that misses a required field of [DetectionCreate], of its
    [bbox] or of one of its [objects], or gives one a value that the
    field's validator refuses. *)
Inductive invalid_body (o : list (string * json)) : Prop :=
| invalid_object_class :
    lacks str_validator "object_class" o -> invalid_body o
| invalid_gemini_analysis :
    lacks str_validator "gemini_analysis" o -> invalid_body o
| invalid_confidence :
    lacks float_validator "confidence" o -> invalid_body o
| invalid_bbox_missing :
    dict_get "bbox" o = None -> invalid_body o
| invalid_bbox_field b k :
    dict_get "bbox" o = Some (JObject b) ->
    k ∈ ["x"; "y"; "width"; "height"] ->
    lacks float_validator k b -> invalid_body o
| invalid_object_class_name l e :
    dict_get "objects" o = Some (JArray l) ->
    JObject e ∈ l ->
    lacks str_validator "class" e -> invalid_body o
| invalid_object_bbox l e :
    dict_get "objects" o = Some (JArray l) ->
    JObject e ∈ l ->
    lacks list_float_validator "bbox" e -> invalid_body o.

End Invalid.

(** ** Further helpers for statements *)

(** [d] with another [gemini_analysis]. *)
Definition with_gemini_analysis (analysis : string) (d : DetectionCreate.t)
  : DetectionCreate.t :=
  DetectionCreate.mk (DetectionCreate.object_class d)
    (DetectionCreate.confidence d) (DetectionCreate.bbox d)
    (DetectionCreate.objects d) analysis.

(** [d] without [objects]. *)
Definition without_objects (d : DetectionCreate.t) : DetectionCreate.t :=
  DetectionCreate.mk (DetectionCreate.object_class d)
    (DetectionCreate.confidence d) (DetectionCreate.bbox d) None
    (DetectionCreate.gemini_analysis d).

(** The rows a query with offset [skip] and limit [limit] selects, both
    non-negative. *)
Definition page_rows (skip limit : Z) (s : Store) : list Detection.t :=
  take (Z.to_nat limit) (drop (Z.to_nat skip) (rows s)).

(** A table holding one row whose [bbox] column is [null]. *)
Definition broken_store : Store :=
  {| rows := [Detection.mk (Some 1%Z) (Some 100%Z) "car" 0.5%float JNull JNull
                "a red car"];
     next_id := 2 |}.

(** The request body of [car] without the key [objects]. *)
Definition car_body_no_objects : list (string * json) :=
  [ ("object_class", JString "car");
    ("confidence", JNumber 0.5);
    ("bbox", JObject [("x", JNumber 10); ("y", JNumber 20);
                      ("width", JNumber 30); ("height", JNumber 40)]);
    ("gemini_analysis", JString "a red car") ].

(** What a committed [SetGeminiAnalysis pk analysis] does to one row. *)
Definition set_row_analysis (pk : option Z) (analysis : string)
    (r : Detection.t) : Detection.t :=
  if bool_decide (Detection.id r = pk)
  then Detection.mk (Detection.id r) (Detection.timestamp r)
         (Detection.object_class r) (Detection.confidence r)
         (Detection.bbox r) (Detection.objects r) analysis
  else r.

(** The store after [car] and then [scene] were created. *)
Definition two_store : Store :=
  (get_db (create_detection (quiet 150) scene) car_store).2.

(** ** Request bodies of the wrong type *)

(** The kinds of JSON value the fields of the models are declared
    with. *)
Definition is_str (v : json) : bool :=
  match v with JString _ => true | _ => false end.
Definition is_float (v : json) : bool :=
  match v with JNumber _ => true | _ => false end.
Definition is_dict (v : json) : bool :=
  match v with JObject _ => true | _ => false end.

(** Validators that coerce nothing: a value that has not the declared
    type is refused. *)
Class StrictValidators (V : FieldValidators) : Prop := {
  str_validator_strict : forall v, is_str v = false -> str_validator v = None;
  float_validator_strict :
    forall v, is_float v = false -> float_validator v = None;
  dict_validator_strict : forall v, is_dict v = false -> dict_validator v = None;
}.




(** A record whose [confidence] is not finite. *)
Definition boundless : DetectionCreate.t :=
  DetectionCreate.mk "car" PrimFloat.infinity (BoundingBox.mk 10 20 30 40) None
    "a red car".
(** ** What each request does, fault by fault *)

Lemma create_detection_cases env d s :
  get_db (create_detection env d) s =
  match fault env db_add with
  | Some msg => (HTTPException 500 msg, s)
  | None =>
      match fault env db_commit with
      | Some msg => (HTTPException 500 msg, s)
      | None =>
          match fault env db_refresh with
          | Some msg => (HTTPException 500 msg, flush env s (Insert (new_row d)))
          | None => (Return d, flush env s (Insert (new_row d)))
          end
      end
  end.
Proof.
  unfold get_db, create_detection, bind, add, commit, refresh, guarded, ret.
  destruct (fault env db_add); [done|].
  destruct (fault env db_commit); [done|].
  by destruct (fault env db_refresh).
Qed.

Lemma update_gemini_analysis_cases env detection_id analysis s :
  get_db (update_gemini_analysis env detection_id analysis) s =
  match fault env db_query with
  | Some msg => (Unhandled (SQLAlchemyError msg), s)
  | None =>
      match List.find (fun r => bool_decide (Detection.id r = Some detection_id))
              (rows s) with
      | None => (HTTPException 404 "Detection not found", s)
      | Some r =>
          match fault env db_commit with
          | Some msg => (Unhandled (SQLAlchemyError msg), s)
          | None =>
              (Return (JObject [("status", JString "success")]),
               flush env s (SetGeminiAnalysis (Detection.id r) analysis))
          end
      end
  end.
Proof.
  unfold get_db, update_gemini_analysis, query_filter_id_first, bind,
    set_gemini_analysis, commit, guarded.
  destruct (fault env db_query); [done|]. simpl.
  destruct (List.find _ _); [|done]. simpl.
  by destruct (fault env db_commit).
Qed.

Lemma get_detections_cases `{V : FieldValidators} env skip limit s :
  get_db (get_detections env skip limit) s =
  match fault env db_query with
  | Some msg => (HTTPException 500 msg, s)
  | None =>
      let after := drop (Z.to_nat skip) (rows s) in
      match comprehension DetectionCreate_of_row
              (if (limit <? 0)%Z then after else take (Z.to_nat limit) after) with
      | inl e => (HTTPException 500 (str e), s)
      | inr l => (Return l, s)
      end
  end.
Proof.
  unfold get_db, get_detections, query_offset_limit_all, bind, lift, guarded.
  destruct (fault env db_query); [done|]. simpl.
  by destruct (comprehension _ _).
Qed.

(** ** Rows written by [create_detection] are read back *)

Section ReadBack.
Context {V : FieldValidators}.

Lemma mapM_float_validator (l : list float) :
  mapM float_validator (JNumber <$> l) = Some l.
Proof.
  apply mapM_Some, Forall2_fmap_l, Forall_Forall2_diag, Forall_forall.
  intros f _. apply float_validator_float.
Qed.

Lemma BoundingBox_init_dict b o :
  BoundingBox_dict b = JObject o -> BoundingBox_init o = inr b.
Proof.
  destruct b as [x y w h]. unfold BoundingBox_dict. simpl.
  intros [= <-]. unfold BoundingBox_init, field. simpl.
  by rewrite !float_validator_float.
Qed.

Lemma ObjectInfo_init_dict obj o :
  ObjectInfo_dict true obj = JObject o -> ObjectInfo_init o = inr obj.
Proof.
  destruct obj as [c b]. unfold ObjectInfo_dict. simpl.
  intros [= <-]. unfold ObjectInfo_init, field, list_float_validator. simpl.
  by rewrite str_validator_str, mapM_float_validator.
Qed.

Lemma comprehension_fmap {A B C : Type} (f : B -> result C) (g : A -> B)
    (h : A -> C) (l : list A) :
  (forall a, f (g a) = inr (h a)) ->
  comprehension f (g <$> l) = inr (h <$> l).
Proof.
  intros Hfg. induction l as [|a l IH]; [done|].
  simpl. rewrite Hfg. simpl. fold (fmap g l). by rewrite IH.
Qed.

Lemma DetectionCreate_of_row_shape i t c conf b objs g :
  DetectionCreate_of_row
    (Detection.mk i t c conf (BoundingBox_dict b) (objects_column objs) g) =
  inr (DetectionCreate.mk c conf b
         (if truthy_list objs then objs else None) g).
Proof.
  unfold DetectionCreate_of_row. simpl.
  rewrite (BoundingBox_init_dict b _ eq_refl). simpl.
  unfold objects_column.
  destruct objs as [[|obj objs]|]; simpl; try done.
  rewrite (ObjectInfo_init_dict obj _ eq_refl). simpl.
  rewrite (comprehension_fmap _ _ id).
  - simpl. by rewrite list_fmap_id.
  - intros a. simpl. by rewrite (ObjectInfo_init_dict a _ eq_refl).
Qed.

Lemma DetectionCreate_of_row_ok r :
  row_ok r -> exists d, DetectionCreate_of_row r = inr d.
Proof.
  destruct r as [i t c conf b o g]. intros [[b' Hb] [objs Ho]].
  simpl in Hb, Ho. subst. eexists. apply DetectionCreate_of_row_shape.
Qed.

End ReadBack.

(** ** The shape of the stored rows is an invariant *)

Lemma flush_row_ok env s c :
  Forall row_ok (rows s) ->
  match c with Insert d => row_ok d | SetGeminiAnalysis _ _ => True end ->
  Forall row_ok (rows (flush env s c)).
Proof.
  intros Hs Hc. destruct c as [d|pk analysis]; simpl.
  - apply Forall_app. split; [done|]. by apply Forall_singleton.
  - apply Forall_fmap. eapply Forall_impl; [exact Hs|].
    intros r Hr. simpl. by case_bool_decide.
Qed.

Lemma new_row_ok d : row_ok (new_row d).
Proof. split; eexists; reflexivity. Qed.

Lemma reachable_rows_ok s : reachable s -> Forall row_ok (rows s).
Proof.
  induction 1 as [|env d s _ IH|env i a s _ IH].
  - constructor.
  - rewrite create_detection_cases.
    destruct (fault env db_add); [done|].
    destruct (fault env db_commit); [done|].
    destruct (fault env db_refresh); unfold snd;
      apply flush_row_ok; auto using new_row_ok.
  - rewrite update_gemini_analysis_cases.
    destruct (fault env db_query); [done|].
    destruct (List.find _ _); [|done].
    destruct (fault env db_commit); [done|].
    unfold snd. by apply flush_row_ok.
Qed.

(** Ids are handed out in the order of the table: the row at position
    [i] has id [i + 1]. *)
Lemma reachable_ids s :
  reachable s ->
  next_id s = (Z.of_nat (length (rows s)) + 1)%Z /\
  forall i r, rows s !! i = Some r -> Detection.id r = Some (Z.of_nat i + 1)%Z.
Proof.
  assert (Hflush : forall env s c,
    (next_id s = (Z.of_nat (length (rows s)) + 1)%Z /\
     forall i r, rows s !! i = Some r ->
                 Detection.id r = Some (Z.of_nat i + 1)%Z) ->
    let s' := flush env s c in
    next_id s' = (Z.of_nat (length (rows s')) + 1)%Z /\
    forall i r, rows s' !! i = Some r ->
                Detection.id r = Some (Z.of_nat i + 1)%Z).
  { intros env s0 c [Hn Hi]. destruct c as [d|pk analysis]; simpl.
    - split; [rewrite length_app; simpl; lia|].
      intros i r [[_ Hr]|[-> <-]]%lookup_snoc_Some; [by apply Hi|].
      simpl. by rewrite Hn.
    - split; [by rewrite length_fmap|].
      intros i r Hr. rewrite list_lookup_fmap in Hr.
      destruct (rows s0 !! i) as [r0|] eqn:Hr0; [|done].
      injection Hr as <-. specialize (Hi i r0 Hr0).
      by case_bool_decide. }
  induction 1 as [|env d s _ IH|env i a s _ IH].
  - split; [done|]. by intros i r.
  - rewrite create_detection_cases.
    destruct (fault env db_add); [done|].
    destruct (fault env db_commit); [done|].
    destruct (fault env db_refresh); unfold snd; by apply Hflush.
  - rewrite update_gemini_analysis_cases.
    destruct (fault env db_query); [done|].
    destruct (List.find _ _); [|done].
    destruct (fault env db_commit); [done|].
    unfold snd. by apply Hflush.
Qed.

Section Records.
Context {V : FieldValidators}.

Lemma rows_ok_Forall2 (l : list Detection.t) :
  Forall row_ok l ->
  exists k, Forall2 (fun r d => DetectionCreate_of_row r = inr d) l k.
Proof.
  induction 1 as [|r l Hr _ [k IH]]; [by exists []|].
  destruct (DetectionCreate_of_row_ok r Hr) as [d Hd].
  exists (d :: k). by constructor.
Qed.

Lemma comprehension_Forall2 {A B : Type} (f : A -> result B) l k :
  Forall2 (fun a b => f a = inr b) l k -> comprehension f l = inr k.
Proof.
  induction 1 as [|a b l k Hab _ IH]; [done|].
  simpl. rewrite Hab. simpl. by rewrite IH.
Qed.

Lemma records_Forall2 s k :
  Forall2 (fun r d => DetectionCreate_of_row r = inr d) (rows s) k ->
  records s = k.
Proof.
  unfold records. generalize (rows s). intros l H.
  induction H as [|r d l k Hrd _ IH]; [done|].
  cbn [omap list_omap]. rewrite Hrd. by rewrite IH.
Qed.

(** On rows of the stored shape, a page of rows is rebuilt into the same
    page of records. *)
Lemma comprehension_page s (n m : nat) :
  Forall row_ok (rows s) ->
  length (records s) = length (rows s) /\
  comprehension DetectionCreate_of_row (drop n (rows s)) =
    inr (drop n (records s)) /\
  comprehension DetectionCreate_of_row (take m (drop n (rows s))) =
    inr (take m (drop n (records s))).
Proof.
  intros Hs. destruct (rows_ok_Forall2 _ Hs) as [k Hk].
  rewrite (records_Forall2 _ _ Hk). split_and!.
  - symmetry. by eapply Forall2_length.
  - by apply comprehension_Forall2, Forall2_drop.
  - by apply comprehension_Forall2, Forall2_take, Forall2_drop.
Qed.

Lemma records_insert env s d :
  Forall row_ok (rows s) ->
  records (flush env s (Insert (new_row d))) = records s ++ [stored d].
Proof.
  intros Hs. unfold records. simpl. rewrite omap_app. f_equal.
  simpl. unfold new_row, Detection. simpl.
  by rewrite DetectionCreate_of_row_shape.
Qed.

End Records.

(** ** [update_gemini_analysis] *)

(** C3: when no stored record has the id, [update_gemini_analysis] raises
    [HTTPException(404, "Detection not found")] and the store is what it
    was: no record is created, deleted or modified. *)
Theorem update_not_found env s detection_id analysis :
  fault env db_query = None ->
  (forall r, r ∈ rows s -> Detection.id r <> Some detection_id) ->
  get_db (update_gemini_analysis env detection_id analysis) s =
  (HTTPException 404 "Detection not found", s).
Proof.
  intros Hq Hid. rewrite update_gemini_analysis_cases, Hq.
  destruct (List.find _ _) as [r|] eqn:Hfind; [|done].
  apply find_some in Hfind as [Hin Hr].
  apply bool_decide_eq_true in Hr.
  apply list_elem_of_In in Hin. by destruct (Hid r Hin).
Qed.

Lemma update_not_found_witness :
  get_db (update_gemini_analysis (quiet 200) 7 "a blue car") car_store =
  (HTTPException 404 "Detection not found", car_store).
Proof.
  apply (update_not_found (quiet 200) car_store 7 "a blue car").
  - reflexivity.
  - intros r Hr. apply list_elem_of_singleton in Hr. by subst r.
Defined.

(** C4: when a stored record has the id, [update_gemini_analysis] returns
    [{"status": "success"}]; afterwards the table has the same rows in the
    same places, every field of every row is what it was except
    [gemini_analysis] of the row with that id, which is the new text, and
    no id was handed out. *)
Theorem update_changes_only_analysis env s detection_id analysis :
  fault env db_query = None ->
  fault env db_commit = None ->
  (exists r, r ∈ rows s /\ Detection.id r = Some detection_id) ->
  exists s',
    get_db (update_gemini_analysis env detection_id analysis) s =
      (Return (JObject [("status", JString "success")]), s') /\
    next_id s' = next_id s /\
    length (rows s') = length (rows s) /\
    forall i r, rows s !! i = Some r ->
      exists r', rows s' !! i = Some r' /\
        Detection.id r' = Detection.id r /\
        Detection.timestamp r' = Detection.timestamp r /\
        Detection.object_class r' = Detection.object_class r /\
        Detection.confidence r' = Detection.confidence r /\
        Detection.bbox r' = Detection.bbox r /\
        Detection.objects r' = Detection.objects r /\
        (Detection.id r = Some detection_id ->
         Detection.gemini_analysis r' = analysis) /\
        (Detection.id r <> Some detection_id -> r' = r).
Proof.
  intros Hq Hc (r0 & Hin & Hid0).
  rewrite update_gemini_analysis_cases, Hq, Hc.
  destruct (List.find _ _) as [r1|] eqn:Hfind.
  - apply find_some in Hfind as [_ Hr1]. apply bool_decide_eq_true in Hr1.
    rewrite Hr1. eexists. split; [reflexivity|]. simpl.
    split; [done|]. split; [by rewrite length_fmap|].
    intros i r Hi. rewrite list_lookup_fmap, Hi. simpl.
    eexists. split; [reflexivity|].
    case_bool_decide; simpl; naive_solver.
  - apply list_elem_of_In in Hin.
    eapply find_none in Hfind; [|exact Hin].
    apply bool_decide_eq_false in Hfind. done.
Qed.

Lemma update_changes_only_analysis_witness :
  exists s',
    get_db (update_gemini_analysis (quiet 200) 1 "a blue car") car_store =
      (Return (JObject [("status", JString "success")]), s') /\
    next_id s' = next_id car_store /\
    length (rows s') = length (rows car_store) /\
    forall i r, rows car_store !! i = Some r ->
      exists r', rows s' !! i = Some r' /\
        Detection.id r' = Detection.id r /\
        Detection.timestamp r' = Detection.timestamp r /\
        Detection.object_class r' = Detection.object_class r /\
        Detection.confidence r' = Detection.confidence r /\
        Detection.bbox r' = Detection.bbox r /\
        Detection.objects r' = Detection.objects r /\
        (Detection.id r = Some 1%Z -> Detection.gemini_analysis r' = "a blue car") /\
        (Detection.id r <> Some 1%Z -> r' = r).
Proof.
  apply (update_changes_only_analysis (quiet 200) car_store 1 "a blue car").
  - reflexivity.
  - reflexivity.
  - eexists. split; [apply list_elem_of_singleton; reflexivity|reflexivity].
Defined.

(** ** [create_detection] *)



(** C6, as the code has it: a store failure raised by [db.add] or by
    [db.commit] is reported as [HTTPException(500)] with the failure's
    message, the session's pending writes are rolled back, and the store
    is exactly what it was.  A failure raised by [db.refresh], after the
    commit, is reported the same way, but the committed row stays. *)
Theorem create_failure_rolls_back env s detection msg :
  ((fault env db_add = Some msg \/
    (fault env db_add = None /\ fault env db_commit = Some msg)) ->
   create_detection env detection {| store := s; pending := [] |} =
     (HTTPException 500 msg, {| store := s; pending := [] |}) /\
   get_db (create_detection env detection) s = (HTTPException 500 msg, s)) /\
  (fault env db_add = None ->
   fault env db_commit = None ->
   fault env db_refresh = Some msg ->
   exists r,
     create_detection env detection {| store := s; pending := [] |} =
       (HTTPException 500 msg,
        {| store := {| rows := rows s ++ [r]; next_id := (next_id s + 1)%Z |};
           pending := [] |}) /\
     get_db (create_detection env detection) s =
       (HTTPException 500 msg,
        {| rows := rows s ++ [r]; next_id := (next_id s + 1)%Z |}) /\
     Detection.id r = Some (next_id s)).
Proof.
  split.
  - intros Hfault. split.
    + unfold create_detection, bind, add, commit, guarded.
      destruct Hfault as [Ha|[Ha Hc]]; rewrite Ha; [done|].
      by rewrite Hc.
    + rewrite create_detection_cases.
      destruct Hfault as [Ha|[Ha Hc]]; rewrite Ha; [done|].
      by rewrite Hc.
  - intros Ha Hc Hr. eexists. split_and!.
    + unfold create_detection, bind, add, commit, refresh, guarded.
      rewrite Ha, Hc, Hr. reflexivity.
    + rewrite create_detection_cases, Ha, Hc, Hr. reflexivity.
    + reflexivity.
Qed.

Lemma create_failure_rolls_back_witness :
  (create_detection (failing 100 db_commit "disk full") car
     {| store := car_store; pending := [] |} =
     (HTTPException 500 "disk full", {| store := car_store; pending := [] |}) /\
   get_db (create_detection (failing 100 db_commit "disk full") car) car_store =
     (HTTPException 500 "disk full", car_store)) /\
  exists r,
    create_detection (failing 100 db_refresh "connection lost") car
      {| store := initial_store; pending := [] |} =
      (HTTPException 500 "connection lost",
       {| store := {| rows := [r]; next_id := 2 |}; pending := [] |}) /\
    get_db (create_detection (failing 100 db_refresh "connection lost") car)
      initial_store =
      (HTTPException 500 "connection lost", {| rows := [r]; next_id := 2 |}) /\
    Detection.id r = Some 1%Z.
Proof.
  split.
  - apply (create_failure_rolls_back (failing 100 db_commit "disk full")
             car_store car "disk full").
    right. split; reflexivity.
  - apply (create_failure_rolls_back (failing 100 db_refresh "connection lost")
             initial_store car "connection lost"); reflexivity.
Defined.

(** C6 as stated fails: when [db.refresh] raises after the commit, the
    caller gets the 500 and yet the row is in the table. *)
Lemma create_failure_after_commit :
  get_db (create_detection (failing 100 db_refresh "connection lost") car)
    initial_store =
  (HTTPException 500 "connection lost", car_store) /\
  length (rows initial_store) = 0 /\
  length (rows car_store) = 1.
Proof. by vm_compute. Qed.

(** C9: a store failure raised in [create_detection] (by [db.add],
    [db.commit] or [db.refresh]) or in [get_detections] (by the query)
    becomes [HTTPException(500)] with its message, and neither handler
    lets an exception out; a store failure raised by the [db.commit] of
    [update_gemini_analysis] leaves the handler uncaught. *)
Theorem store_failures_caught_except_update `{V : FieldValidators}
    env s detection skip limit detection_id analysis msg :
  ((fault env db_add = Some msg \/
    (fault env db_add = None /\ fault env db_commit = Some msg) \/
    (fault env db_add = None /\ fault env db_commit = None /\
     fault env db_refresh = Some msg)) ->
   (get_db (create_detection env detection) s).1 = HTTPException 500 msg) /\
  (fault env db_query = Some msg ->
   (get_db (get_detections env skip limit) s).1 = HTTPException 500 msg) /\
  (forall e,
     (get_db (create_detection env detection) s).1 <> Unhandled e /\
     (get_db (get_detections env skip limit) s).1 <> Unhandled e) /\
  (fault env db_query = None ->
   (exists r, r ∈ rows s /\ Detection.id r = Some detection_id) ->
   fault env db_commit = Some msg ->
   get_db (update_gemini_analysis env detection_id analysis) s =
   (Unhandled (SQLAlchemyError msg), s)).
Proof.
  split_and!.
  - rewrite create_detection_cases.
    intros [Ha|[[Ha Hc]|(Ha & Hc & Hr)]]; rewrite Ha; [done|rewrite Hc..];
      [done|]. by rewrite Hr.
  - intros Hq. by rewrite get_detections_cases, Hq.
  - intros e. rewrite create_detection_cases, get_detections_cases. split.
    + destruct (fault env db_add); [done|].
      destruct (fault env db_commit); [done|].
      by destruct (fault env db_refresh).
    + destruct (fault env db_query); [done|]. simpl.
      by destruct (comprehension _ _).
  - intros Hq (r & Hin & Hid) Hc.
    rewrite update_gemini_analysis_cases, Hq, Hc.
    destruct (List.find _ _) eqn:Hfind; [done|].
    apply list_elem_of_In in Hin.
    eapply find_none in Hfind; [|exact Hin].
    by apply bool_decide_eq_false in Hfind.
Qed.

Lemma store_failures_caught_except_update_witness :
  (get_db (create_detection (failing 100 db_commit "disk full") car)
     car_store).1 = HTTPException 500 "disk full" /\
  (get_db (get_detections (failing 100 db_query "no connection") 0 100)
     car_store).1 = HTTPException 500 "no connection" /\
  get_db (update_gemini_analysis (failing 100 db_commit "disk full") 1
            "a blue car") car_store =
  (Unhandled (SQLAlchemyError "disk full"), car_store).
Proof.
  split_and!.
  - apply (store_failures_caught_except_update
             (failing 100 db_commit "disk full") car_store car 0 100 1
             "a blue car" "disk full").
    right. left. split; reflexivity.
  - apply (store_failures_caught_except_update
             (failing 100 db_query "no connection") car_store car 0 100 1
             "a blue car" "no connection").
    reflexivity.
  - apply (store_failures_caught_except_update
             (failing 100 db_commit "disk full") car_store car 0 100 1
             "a blue car" "disk full").
    + reflexivity.
    + eexists. split; [apply list_elem_of_singleton; reflexivity|reflexivity].
    + reflexivity.
Defined.

(** ** Invariants of the reachable stores *)

(** C10: in every reachable store, the [bbox] of every row is a dict with
    exactly the keys [x], [y], [width] and [height], each bound to a
    float. *)
Theorem stored_bbox_shape s r :
  reachable s ->
  r ∈ rows s ->
  exists x y width height,
    Detection.bbox r =
    JObject [("x", JNumber x); ("y", JNumber y);
             ("width", JNumber width); ("height", JNumber height)].
Proof.
  intros Hs Hr. apply reachable_rows_ok in Hs.
  rewrite Forall_forall in Hs. destruct (Hs r Hr) as [[b Hb] _].
  rewrite Hb. destruct b as [x y w h]. by exists x, y, w, h.
Qed.

Lemma car_store_reachable : reachable car_store.
Proof. apply reachable_create, reachable_initial. Defined.

Lemma stored_bbox_shape_witness :
  exists x y width height,
    BoundingBox_dict (DetectionCreate.bbox car) =
    JObject [("x", JNumber x); ("y", JNumber y);
             ("width", JNumber width); ("height", JNumber height)].
Proof.
  apply (stored_bbox_shape car_store
           (Detection.mk (Some 1%Z) (Some 100%Z) "car" 0.92%float
              (BoundingBox_dict (DetectionCreate.bbox car))
              (objects_column (DetectionCreate.objects car)) "a red car")).
  - exact car_store_reachable.
  - apply list_elem_of_singleton. reflexivity.
Defined.

(** ** [get_detections] *)



(** ** Create, then list *)

Lemma create_then_list_all `{V : FieldValidators} env env' s d (limit : Z) :
  reachable s ->
  fault env db_add = None ->
  fault env db_commit = None ->
  fault env db_refresh = None ->
  fault env' db_query = None ->
  (Z.of_nat (length (rows s)) < limit)%Z ->
  let s' := (get_db (create_detection env d) s).2 in
  length (records s) = length (rows s) /\
  rows s' = rows s ++ [Detection.mk (Some (next_id s)) (Some (utcnow env))
                         (DetectionCreate.object_class d)
                         (DetectionCreate.confidence d)
                         (BoundingBox_dict (DetectionCreate.bbox d))
                         (objects_column (DetectionCreate.objects d))
                         (DetectionCreate.gemini_analysis d)] /\
  get_db (get_detections env' 0 limit) s' =
    (Return (records s ++ [stored d]), s').
Proof.
  intros Hs Ha Hc Hr Hq Hlimit s'.
  assert (Hs' : s' = flush env s (Insert (new_row d))).
  { unfold s'. by rewrite create_detection_cases, Ha, Hc, Hr. }
  pose proof (reachable_rows_ok s Hs) as Hok.
  assert (Hok' : Forall row_ok (rows s')).
  { rewrite Hs'. apply flush_row_ok; [done|apply new_row_ok]. }
  destruct (comprehension_page s 0 0 Hok) as (Hlen & _ & _).
  destruct (comprehension_page s' 0 (Z.to_nat limit) Hok') as (Hlen' & _ & Hpage).
  split_and!; [done|by rewrite Hs'|].
  rewrite get_detections_cases, Hq. cbv zeta.
  change (Z.to_nat 0) with 0.
  destruct (Z.ltb_spec limit 0); [lia|].
  rewrite Hpage, drop_0. f_equal. f_equal.
  rewrite take_ge.
  - rewrite Hs'. by apply records_insert.
  - rewrite Hlen', Hs'. simpl. rewrite length_app. simpl. lia.
Qed.

(** C1, as the code has it: after a create, a list with [skip = 0] and a
    limit above the number of records returns, last, an entry with the
    input's [object_class], [confidence], [bbox] and [gemini_analysis];
    its [objects] are the input's when these are absent or a non-empty
    list, and are [None] when the input's list is empty.  On the wire each
    object carries its [class_name] under the key [class], and has no key
    [class_name]. *)
Theorem create_then_list `{V : FieldValidators} env env' s d (limit : Z) :
  reachable s ->
  fault env db_add = None ->
  fault env db_commit = None ->
  fault env db_refresh = None ->
  fault env' db_query = None ->
  (Z.of_nat (length (rows s)) < limit)%Z ->
  let s' := (get_db (create_detection env d) s).2 in
  exists l entry,
    get_db (get_detections env' 0 limit) s' = (Return l, s') /\
    l !! length (rows s) = Some entry /\
    length l = S (length (rows s)) /\
    DetectionCreate.object_class entry = DetectionCreate.object_class d /\
    DetectionCreate.confidence entry = DetectionCreate.confidence d /\
    DetectionCreate.bbox entry = DetectionCreate.bbox d /\
    DetectionCreate.gemini_analysis entry = DetectionCreate.gemini_analysis d /\
    (DetectionCreate.objects d <> Some [] -> entry = d) /\
    (DetectionCreate.objects d = Some [] -> DetectionCreate.objects entry = None) /\
    forall objs,
      DetectionCreate.objects entry = Some objs ->
      json_get "objects" (DetectionCreate_json entry) =
        Some (JArray (ObjectInfo_dict true <$> objs)) /\
      forall obj, obj ∈ objs ->
        json_get "class" (ObjectInfo_dict true obj) =
          Some (JString (ObjectInfo.class_name obj)) /\
        json_get "class_name" (ObjectInfo_dict true obj) = None.
Proof.
  intros Hs Ha Hc Hr Hq Hlimit s'.
  destruct (create_then_list_all env env' s d limit Hs Ha Hc Hr Hq Hlimit)
    as (Hlen & _ & Hlist). fold s' in Hlist.
  exists (records s ++ [stored d]), (stored d). split_and!.
  - exact Hlist.
  - rewrite <- Hlen. apply list_lookup_middle. reflexivity.
  - rewrite length_app, Hlen. simpl. lia.
  - reflexivity.
  - reflexivity.
  - reflexivity.
  - reflexivity.
  - intros Hobjs. destruct d as [c conf b [[|obj objs]|] g]; done.
  - unfold stored. by intros ->.
  - intros objs Hobjs. split.
    + simpl in *. by rewrite Hobjs.
    + intros obj _. split; reflexivity.
Qed.

Lemma create_then_list_witness :
  exists l entry,
    get_db (get_detections (quiet 200) 0 100)
      (get_db (create_detection (quiet 150) scene) car_store).2 =
      (Return l, (get_db (create_detection (quiet 150) scene) car_store).2) /\
    l !! 1 = Some entry /\
    length l = 2 /\
    DetectionCreate.object_class entry = "scene" /\
    DetectionCreate.confidence entry = 1%float /\
    DetectionCreate.bbox entry = BoundingBox.mk 0 0 640 480 /\
    DetectionCreate.gemini_analysis entry = "an empty street" /\
    (DetectionCreate.objects scene <> Some [] -> entry = scene) /\
    (DetectionCreate.objects scene = Some [] ->
     DetectionCreate.objects entry = None) /\
    forall objs,
      DetectionCreate.objects entry = Some objs ->
      json_get "objects" (DetectionCreate_json entry) =
        Some (JArray (ObjectInfo_dict true <$> objs)) /\
      forall obj, obj ∈ objs ->
        json_get "class" (ObjectInfo_dict true obj) =
          Some (JString (ObjectInfo.class_name obj)) /\
        json_get "class_name" (ObjectInfo_dict true obj) = None.
Proof.
  apply (create_then_list (quiet 150) (quiet 200) car_store scene 100
           car_store_reachable eq_refl eq_refl eq_refl eq_refl).
  reflexivity.
Defined.

(** C1 as stated fails: a record created with an empty list of objects
    comes back with none. *)
Lemma create_then_list_empty_objects :
  exists entry,
    get_db (get_detections (quiet 200) 0 100)
      (get_db (create_detection (quiet 100) lone) initial_store).2 =
      (Return [entry], (get_db (create_detection (quiet 100) lone) initial_store).2) /\
    DetectionCreate.objects lone = Some [] /\
    DetectionCreate.objects entry = None /\
    json_get "objects" (DetectionCreate_json lone) = Some (JArray []) /\
    json_get "objects" (DetectionCreate_json entry) = Some JNull.
Proof. eexists. split_and!; by vm_compute. Qed.

(** C8: whatever the [object_class], ["scene"] included, the stored row
    and the entry a list returns are those of the same record under any
    other class but for that one field, and the box is kept as given: the
    row's [bbox] is the dict of the input's, and the entry's [bbox] is the
    input's. *)
Theorem scene_not_special `{V : FieldValidators} env env' s d c (limit : Z) :
  reachable s ->
  fault env db_add = None ->
  fault env db_commit = None ->
  fault env db_refresh = None ->
  fault env' db_query = None ->
  (Z.of_nat (length (rows s)) < limit)%Z ->
  let s1 := (get_db (create_detection env d) s).2 in
  let s2 := (get_db (create_detection env (with_object_class c d)) s).2 in
  exists r l entry,
    rows s1 = rows s ++ [r] /\
    rows s2 = rows s ++
      [Detection.mk (Detection.id r) (Detection.timestamp r) c
         (Detection.confidence r) (Detection.bbox r) (Detection.objects r)
         (Detection.gemini_analysis r)] /\
    Detection.bbox r = BoundingBox_dict (DetectionCreate.bbox d) /\
    get_db (get_detections env' 0 limit) s1 = (Return (l ++ [entry]), s1) /\
    get_db (get_detections env' 0 limit) s2 =
      (Return (l ++ [with_object_class c entry]), s2) /\
    DetectionCreate.bbox (with_object_class c entry) = DetectionCreate.bbox d /\
    DetectionCreate.object_class (with_object_class c entry) = c.
Proof.
  intros Hs Ha Hc Hr Hq Hlimit s1 s2.
  destruct (create_then_list_all env env' s d limit Hs Ha Hc Hr Hq Hlimit)
    as (_ & Hrows1 & Hlist1).
  destruct (create_then_list_all env env' s (with_object_class c d) limit
              Hs Ha Hc Hr Hq Hlimit) as (_ & Hrows2 & Hlist2).
  fold s1 in Hrows1, Hlist1. fold s2 in Hrows2, Hlist2.
  eexists _, (records s), (stored d). split_and!.
  - exact Hrows1.
  - exact Hrows2.
  - reflexivity.
  - exact Hlist1.
  - exact Hlist2.
  - reflexivity.
  - reflexivity.
Qed.

Lemma scene_not_special_witness :
  exists l entry,
    get_db (get_detections (quiet 200) 0 100)
      (get_db (create_detection (quiet 150) (with_object_class "scene" car))
         car_store).2 =
    (Return (l ++ [with_object_class "scene" entry]),
     (get_db (create_detection (quiet 150) (with_object_class "scene" car))
        car_store).2) /\
    DetectionCreate.bbox (with_object_class "scene" entry) =
      BoundingBox.mk 10 20 30 40 /\
    DetectionCreate.object_class (with_object_class "scene" entry) = "scene".
Proof.
  destruct (scene_not_special (quiet 150) (quiet 200) car_store car "scene" 100
              car_store_reachable eq_refl eq_refl eq_refl eq_refl eq_refl)
    as (r & l & entry & _ & _ & _ & _ & Hlist & Hbbox & Hclass).
  exists l, entry. split_and!; [exact Hlist|exact Hbbox|exact Hclass].
Defined.

(** ** Validation of the request body *)

Section Parse.
Context {V : FieldValidators}.

Lemma field_inr {A : Type} model key (validate : json -> option A) o a :
  field model key validate o = inr a ->
  exists v, dict_get key o = Some v /\ validate v = Some a.
Proof.
  unfold field. destruct (dict_get key o) as [v|]; [|done].
  destruct (validate v) as [a'|] eqn:Hv; [|done].
  intros [= <-]. by exists v.
Qed.

Lemma field_inl {A : Type} model key (validate : json -> option A) o e :
  field model key validate o = inl e ->
  exists loc, e = ValidationError model loc.
Proof.
  unfold field. destruct (dict_get key o) as [v|]; [|intros [= <-]; eauto].
  destruct (validate v); [done|]. intros [= <-]; eauto.
Qed.

Lemma field_lacks {A : Type} model key (validate : json -> option A) o a :
  lacks validate key o -> field model key validate o <> inr a.
Proof.
  unfold lacks. intros Hl (v & Hv & Ha)%field_inr.
  rewrite Hv in Hl. congruence.
Qed.

Lemma BoundingBox_init_lacks b k bb :
  k ∈ ["x"; "y"; "width"; "height"] ->
  lacks float_validator k b ->
  BoundingBox_init b <> inr bb.
Proof.
  intros Hk Hl. unfold BoundingBox_init.
  destruct (field "BoundingBox" "x" _ b) as [|x] eqn:Hx; [done|].
  destruct (field "BoundingBox" "y" _ b) as [|y] eqn:Hy; [done|].
  destruct (field "BoundingBox" "width" _ b) as [|w] eqn:Hw; [done|].
  destruct (field "BoundingBox" "height" _ b) as [|h] eqn:Hh; [done|].
  exfalso.
  repeat (apply elem_of_cons in Hk as [->|Hk]; [by eapply field_lacks|]).
  by apply elem_of_nil in Hk.
Qed.

Lemma ObjectInfo_init_lacks e oi :
  lacks str_validator "class" e \/ lacks list_float_validator "bbox" e ->
  ObjectInfo_init e <> inr oi.
Proof.
  intros Hl. unfold ObjectInfo_init.
  destruct (field "ObjectInfo" "class" _ e) as [|c] eqn:Hc; [done|].
  destruct (field "ObjectInfo" "bbox" _ e) as [|b] eqn:Hb; [done|].
  exfalso. destruct Hl; eapply field_lacks; eauto.
Qed.

Lemma objects_validator_lacks l e :
  JObject e ∈ l ->
  lacks str_validator "class" e \/ lacks list_float_validator "bbox" e ->
  objects_validator (JArray l) = None.
Proof.
  intros He Hl. unfold objects_validator.
  destruct (mapM _ l) as [k|] eqn:Hk; [|done].
  apply mapM_Some_1 in Hk. apply list_elem_of_lookup in He as [i Hi].
  destruct (Forall2_lookup_l _ _ _ i _ Hk Hi) as (oi & _ & Hoi).
  unfold model_validator in Hoi. rewrite dict_validator_dict in Hoi.
  destruct (ObjectInfo_init e) as [|oi'] eqn:He; [done|].
  by apply ObjectInfo_init_lacks in He.
Qed.

End Parse.

Section Reject.
Context {V : FieldValidators}.

Lemma DetectionCreate_parse_inl body e :
  DetectionCreate_parse body = inl e ->
  exists model loc, e = ValidationError model loc.
Proof.
  unfold DetectionCreate_parse.
  destruct (dict_validator body) as [o|]; [|intros [= <-]; eauto].
  destruct (field _ "object_class" _ o) eqn:H1; simpl;
    [intros [= <-]; apply field_inl in H1 as [? ->]; eauto|].
  destruct (field _ "confidence" _ o) eqn:H2; simpl;
    [intros [= <-]; apply field_inl in H2 as [? ->]; eauto|].
  destruct (field _ "bbox" _ o) eqn:H3; simpl;
    [intros [= <-]; apply field_inl in H3 as [? ->]; eauto|].
  destruct (dict_get "objects" o); simpl.
  - destruct (field _ "objects" _ o) eqn:H4; simpl;
      [intros [= <-]; apply field_inl in H4 as [? ->]; eauto|].
    destruct (field _ "gemini_analysis" _ o) eqn:H5; simpl;
      [intros [= <-]; apply field_inl in H5 as [? ->]; eauto|done].
  - destruct (field _ "gemini_analysis" _ o) eqn:H5; simpl;
      [intros [= <-]; apply field_inl in H5 as [? ->]; eauto|done].
Qed.

Lemma field_objects_lacks o l e objs :
  dict_get "objects" o = Some (JArray l) ->
  JObject e ∈ l ->
  lacks str_validator "class" e \/ lacks list_float_validator "bbox" e ->
  field "DetectionCreate" "objects" objects_validator o <> inr objs.
Proof.
  intros Hl He Hlacks (v & Hv & Hobjs)%field_inr.
  rewrite Hl in Hv. injection Hv as <-.
  by rewrite (objects_validator_lacks l e He Hlacks) in Hobjs.
Qed.

Lemma DetectionCreate_parse_invalid o d :
  invalid_body o -> DetectionCreate_parse (JObject o) <> inr d.
Proof.
  intros Hinv. unfold DetectionCreate_parse. rewrite dict_validator_dict.
  destruct (field _ "object_class" _ o) as [|oc] eqn:H1; [done|]. simpl.
  destruct (field _ "confidence" _ o) as [|conf] eqn:H2; [done|]. simpl.
  destruct (field _ "bbox" _ o) as [|bb] eqn:H3; [done|]. simpl.
  apply field_inr in H3 as (vb & Hvb & Hbb).
  destruct (dict_get "objects" o) as [vo|] eqn:Hvo; simpl.
  - destruct (field _ "objects" _ o) as [|objs] eqn:H4; [done|]. simpl.
    destruct (field _ "gemini_analysis" _ o) as [|ga] eqn:H5; [done|]. simpl.
    intros _. destruct Hinv as [Hl|Hl|Hl|Hb|b k Hb Hk Hl|l e Hl He Hc|l e Hl He Hc].
    + exact (field_lacks _ _ _ _ _ Hl H1).
    + exact (field_lacks _ _ _ _ _ Hl H5).
    + exact (field_lacks _ _ _ _ _ Hl H2).
    + congruence.
    + rewrite Hb in Hvb. injection Hvb as <-.
      unfold model_validator in Hbb. rewrite dict_validator_dict in Hbb.
      destruct (BoundingBox_init b) eqn:Hinit; [done|].
      exact (BoundingBox_init_lacks _ _ _ Hk Hl Hinit).
    + exact (field_objects_lacks o l e objs Hl He (or_introl Hc) H4).
    + exact (field_objects_lacks o l e objs Hl He (or_intror Hc) H4).
  - destruct (field _ "gemini_analysis" _ o) as [|ga] eqn:H5; [done|]. simpl.
    intros _. destruct Hinv as [Hl|Hl|Hl|Hb|b k Hb Hk Hl|l e Hl He Hc|l e Hl He Hc].
    + exact (field_lacks _ _ _ _ _ Hl H1).
    + exact (field_lacks _ _ _ _ _ Hl H5).
    + exact (field_lacks _ _ _ _ _ Hl H2).
    + congruence.
    + rewrite Hb in Hvb. injection Hvb as <-.
      unfold model_validator in Hbb. rewrite dict_validator_dict in Hbb.
      destruct (BoundingBox_init b) eqn:Hinit; [done|].
      exact (BoundingBox_init_lacks _ _ _ Hk Hl Hinit).
    + congruence.
    + congruence.
Qed.

End Reject.

(** A body that is [invalid_body] for the validators at hand is answered
    with the validation error, and the handler is not called. *)
Lemma post_detections_invalid `{V : FieldValidators} env o s :
  invalid_body o ->
  exists model loc,
    DetectionCreate_parse (JObject o) = inl (ValidationError model loc) /\
    post_detections env (JObject o) s =
      (HTTPException 422 (str (ValidationError model loc)), s).
Proof.
  intros Hinv. unfold post_detections.
  destruct (DetectionCreate_parse (JObject o)) as [e|d] eqn:Hparse.
  - destruct (DetectionCreate_parse_inl _ _ Hparse) as (model & loc & ->).
    by exists model, loc.
  - by apply DetectionCreate_parse_invalid in Hparse.
Qed.

Section Strict.
Context {V : FieldValidators} {S : StrictValidators V}.






End Strict.

#[export] Instance strict_validators_strict : StrictValidators strict_validators.
Proof. split; intros v Hv; by destruct v. Qed.




(** ** The request model and its wire form *)

Section Wire.
Context {V : FieldValidators}.

(** X1: the body the service sends for a record is a body it accepts, and
    it reads the same record back from it; an absent [objects] and an
    empty one are both kept as they are. *)
Theorem parse_json_round_trip (d : DetectionCreate.t) :
  DetectionCreate_parse (DetectionCreate_json d) = inr d.
Proof.
  destruct d as [c conf b objs g].
  unfold DetectionCreate_parse, DetectionCreate_json.
  rewrite dict_validator_dict. unfold field. simpl.
  rewrite !str_validator_str, float_validator_float. simpl.
  assert (Hb : model_validator BoundingBox_init (BoundingBox_dict b) = Some b).
  { unfold model_validator, BoundingBox_dict.
    by rewrite dict_validator_dict, (BoundingBox_init_dict b _ eq_refl). }
  rewrite Hb. simpl.
  destruct objs as [objs|]; simpl; [|done].
  assert (Hobjs : mapM (model_validator ObjectInfo_init)
                    (ObjectInfo_dict true <$> objs) = Some objs).
  { apply mapM_Some, Forall2_fmap_l, Forall_Forall2_diag, Forall_forall.
    intros obj _. change (model_validator ObjectInfo_init
                            (ObjectInfo_dict true obj) = Some obj).
    unfold model_validator, ObjectInfo_dict.
    by rewrite dict_validator_dict, (ObjectInfo_init_dict obj _ eq_refl). }
  by rewrite Hobjs.
Qed.

Lemma dict_get_snoc_ne k k' v o :
  k <> k' -> dict_get k (o ++ [(k', v)]) = dict_get k o.
Proof.
  intros Hk. induction o as [|[k0 v0] o IH]; simpl.
  - by rewrite (proj2 (String.eqb_neq k k') Hk).
  - by destruct (String.eqb k k0).
Qed.

Lemma dict_get_snoc_new k v o :
  dict_get k o = None -> dict_get k (o ++ [(k, v)]) = Some v.
Proof.
  induction o as [|[k0 v0] o IH]; simpl.
  - by rewrite String.eqb_refl.
  - by destruct (String.eqb k k0).
Qed.

Lemma field_snoc_ne {A : Type} model key (validate : json -> option A) k' v o :
  key <> k' ->
  field model key validate (o ++ [(k', v)]) = field model key validate o.
Proof. intros Hk. unfold field. by rewrite dict_get_snoc_ne. Qed.

(** X2: leaving [objects] out of a body is the same as giving it as
    [null]: both bodies are accepted or refused alike, and an accepted one
    has no objects. *)
Theorem parse_objects_default o :
  dict_get "objects" o = None ->
  DetectionCreate_parse (JObject (o ++ [("objects", JNull)])) =
    DetectionCreate_parse (JObject o) /\
  forall d, DetectionCreate_parse (JObject o) = inr d ->
            DetectionCreate.objects d = None.
Proof.
  intros Hobjs. unfold DetectionCreate_parse. rewrite !dict_validator_dict.
  rewrite !field_snoc_ne by discriminate.
  rewrite Hobjs, (dict_get_snoc_new _ JNull _ Hobjs).
  split.
  - destruct (field _ "object_class" _ o); [done|]. simpl.
    destruct (field _ "confidence" _ o); [done|]. simpl.
    destruct (field _ "bbox" _ o); [done|]. simpl.
    unfold field at 1. rewrite (dict_get_snoc_new _ JNull _ Hobjs). simpl.
    by rewrite field_snoc_ne by discriminate.
  - intros d.
    destruct (field _ "object_class" _ o); [done|]. simpl.
    destruct (field _ "confidence" _ o); [done|]. simpl.
    destruct (field _ "bbox" _ o); [done|]. simpl.
    destruct (field _ "gemini_analysis" _ o); [done|]. simpl.
    by intros [= <-].
Qed.

End Wire.

Lemma parse_objects_default_witness :
  DetectionCreate_parse (JObject (car_body_no_objects ++ [("objects", JNull)])) =
    DetectionCreate_parse (JObject car_body_no_objects) /\
  forall d, DetectionCreate_parse (JObject car_body_no_objects) = inr d ->
            DetectionCreate.objects d = None.
Proof. apply (parse_objects_default car_body_no_objects). reflexivity. Defined.

(** ** More invariants of the reachable stores *)

(** Every reachable store comes from the initial one by writes of rows
    built by [create_detection] and of analyses set by
    [update_gemini_analysis]. *)
Lemma reachable_flush_ind (P : Store -> Prop) :
  P initial_store ->
  (forall env s d, reachable s -> P s -> P (flush env s (Insert (new_row d)))) ->
  (forall env s pk analysis,
     reachable s -> P s -> P (flush env s (SetGeminiAnalysis pk analysis))) ->
  forall s, reachable s -> P s.
Proof.
  intros Hinit Hins Hset. induction 1 as [|env d s Hs IH|env i a s Hs IH].
  - exact Hinit.
  - rewrite create_detection_cases.
    destruct (fault env db_add); [done|].
    destruct (fault env db_commit); [done|].
    destruct (fault env db_refresh); unfold snd; by apply Hins.
  - rewrite update_gemini_analysis_cases.
    destruct (fault env db_query); [done|].
    destruct (List.find _ _); [|done].
    destruct (fault env db_commit); [done|].
    unfold snd. by apply Hset.
Qed.

(** X3: in every reachable store the [objects] column of a row is either
    [null] or a non-empty list of dicts written by alias, with the keys
    [class] and [bbox]; it is never an empty list and never holds the
    key [class_name]. *)
Theorem stored_objects_shape s r :
  reachable s ->
  r ∈ rows s ->
  Detection.objects r = JNull \/
  exists obj objs,
    Detection.objects r = JArray (ObjectInfo_dict true <$> obj :: objs) /\
    Forall (fun o => json_get "class_name" o = None /\
                     is_Some (json_get "class" o) /\
                     is_Some (json_get "bbox" o))
      (ObjectInfo_dict true <$> obj :: objs).
Proof.
  intros Hs Hr. apply reachable_rows_ok in Hs.
  rewrite Forall_forall in Hs. destruct (Hs r Hr) as [_ [objs Hobjs]].
  rewrite Hobjs. unfold objects_column.
  destruct objs as [[|obj objs]|]; simpl; [by left|right|by left].
  exists obj, objs. split; [done|].
  change (Forall (fun o => json_get "class_name" o = None /\
                           is_Some (json_get "class" o) /\
                           is_Some (json_get "bbox" o))
            (ObjectInfo_dict true <$> obj :: objs)).
  apply Forall_fmap, Forall_forall. intros o _. simpl. eauto.
Qed.

Lemma stored_objects_shape_witness :
  objects_column (DetectionCreate.objects car) = JNull \/
  exists obj objs,
    objects_column (DetectionCreate.objects car) =
      JArray (ObjectInfo_dict true <$> obj :: objs) /\
    Forall (fun o => json_get "class_name" o = None /\
                     is_Some (json_get "class" o) /\
                     is_Some (json_get "bbox" o))
      (ObjectInfo_dict true <$> obj :: objs).
Proof.
  apply (stored_objects_shape car_store
           (Detection.mk (Some 1%Z) (Some 100%Z) "car" 0.92%float
              (BoundingBox_dict (DetectionCreate.bbox car))
              (objects_column (DetectionCreate.objects car)) "a red car")).
  - exact car_store_reachable.
  - apply list_elem_of_singleton. reflexivity.
Defined.

Lemma reachable_timestamps s :
  reachable s -> Forall (fun r => is_Some (Detection.timestamp r)) (rows s).
Proof.
  revert s. apply reachable_flush_ind.
  - constructor.
  - intros env s d _ IH. simpl. apply Forall_app. split; [done|].
    apply Forall_singleton. simpl. eauto.
  - intros env s pk a _ IH. simpl. apply Forall_fmap.
    eapply Forall_impl; [exact IH|]. intros r Hr. simpl.
    by case_bool_decide.
Qed.

(** X4: in every reachable store each row has an id and a timestamp, the
    ids lie between 1 and the next id to hand out, and no two rows share
    an id. *)
Theorem stored_ids_unique s :
  reachable s ->
  (forall r, r ∈ rows s ->
     is_Some (Detection.timestamp r) /\
     exists n, Detection.id r = Some n /\ (1 <= n < next_id s)%Z) /\
  (forall i j ri rj,
     rows s !! i = Some ri -> rows s !! j = Some rj ->
     Detection.id ri = Detection.id rj -> i = j).
Proof.
  intros Hs. destruct (reachable_ids s Hs) as [Hnext Hids].
  pose proof (reachable_timestamps s Hs) as Hts.
  rewrite Forall_forall in Hts. split.
  - intros r Hr. split; [by apply Hts|].
    apply list_elem_of_lookup in Hr as [i Hi].
    exists (Z.of_nat i + 1)%Z. split; [by apply Hids|].
    apply lookup_lt_Some in Hi. lia.
  - intros i j ri rj Hi Hj Heq.
    rewrite (Hids i ri Hi), (Hids j rj Hj) in Heq.
    injection Heq. lia.
Qed.

Lemma stored_ids_unique_witness :
  (forall r, r ∈ rows two_store ->
     is_Some (Detection.timestamp r) /\
     exists n, Detection.id r = Some n /\ (1 <= n < next_id two_store)%Z) /\
  (forall i j ri rj,
     rows two_store !! i = Some ri -> rows two_store !! j = Some rj ->
     Detection.id ri = Detection.id rj -> i = j).
Proof.
  apply (stored_ids_unique two_store).
  apply reachable_create, car_store_reachable.
Defined.

(** ** More on [update_gemini_analysis] *)

Lemma set_row_analysis_id pk analysis r :
  Detection.id (set_row_analysis pk analysis r) = Detection.id r.
Proof. unfold set_row_analysis. by case_bool_decide. Qed.

Lemma find_id_fmap (f : Detection.t -> Detection.t) k l :
  (forall r, Detection.id (f r) = Detection.id r) ->
  List.find (fun r => bool_decide (Detection.id r = Some k)) (f <$> l) =
  f <$> List.find (fun r => bool_decide (Detection.id r = Some k)) l.
Proof.
  intros Hf. induction l as [|r l IH]; [done|].
  simpl. rewrite Hf. by destruct (bool_decide _).
Qed.

(** The store an update leaves when neither its query nor its commit
    fails. *)
Lemma update_gemini_analysis_store env k analysis s :
  fault env db_query = None ->
  fault env db_commit = None ->
  get_db (update_gemini_analysis env k analysis) s =
  match List.find (fun r => bool_decide (Detection.id r = Some k)) (rows s) with
  | None => (HTTPException 404 "Detection not found", s)
  | Some _ =>
      (Return (JObject [("status", JString "success")]),
       {| rows := set_row_analysis (Some k) analysis <$> rows s;
          next_id := next_id s |})
  end.
Proof.
  intros Hq Hc. rewrite update_gemini_analysis_cases, Hq, Hc.
  destruct (List.find _ _) as [r|] eqn:Hfind; [|done].
  apply find_some in Hfind as [_ Hr]. apply bool_decide_eq_true in Hr.
  by rewrite Hr.
Qed.

Section UpdateList.
Context {V : FieldValidators}.

Lemma DetectionCreate_of_row_set_analysis pk analysis r d :
  Detection.id r = pk ->
  DetectionCreate_of_row r = inr d ->
  DetectionCreate_of_row (set_row_analysis pk analysis r) =
  inr (with_gemini_analysis analysis d).
Proof.
  intros Hpk. unfold set_row_analysis. rewrite bool_decide_eq_true_2 by done.
  unfold DetectionCreate_of_row. simpl.
  destruct (rbind (kwargs (Detection.bbox r)) _) as [|b]; [done|]. simpl.
  destruct (if truthy (Detection.objects r) then _ else _) as [|objs];
    [done|]. simpl.
  by intros [= <-].
Qed.

(** X6: after a successful update of the record at position [i] of a
    reachable store (its id is [i + 1]), a list shows that record with
    the new analysis and every other record as before, in the same
    order. *)
Theorem update_then_list env s (i : nat) analysis d :
  reachable s ->
  fault env db_query = None ->
  fault env db_commit = None ->
  records s !! i = Some d ->
  let s' := (get_db (update_gemini_analysis env (Z.of_nat i + 1) analysis) s).2 in
  records s' = <[i := with_gemini_analysis analysis d]> (records s) /\
  forall env' (limit : Z),
    fault env' db_query = None ->
    (Z.of_nat (length (rows s)) <= limit)%Z ->
    get_db (get_detections env' 0 limit) s' =
    (Return (<[i := with_gemini_analysis analysis d]> (records s)), s').
Proof.
  intros Hs Hq Hc Hd s'.
  destruct (reachable_ids s Hs) as [_ Hids].
  pose proof (reachable_rows_ok s Hs) as Hok.
  destruct (rows_ok_Forall2 _ Hok) as [recs Hrecs].
  rewrite (records_Forall2 _ _ Hrecs) in *.
  destruct (Forall2_lookup_r _ _ _ i d Hrecs Hd) as (ri & Hri & Hrid).
  assert (Hs' : s' = {| rows := set_row_analysis (Some (Z.of_nat i + 1)%Z)
                                  analysis <$> rows s;
                        next_id := next_id s |}).
  { unfold s'. rewrite update_gemini_analysis_store by done.
    destruct (List.find _ _) eqn:Hfind; [done|].
    eapply find_none in Hfind;
      [|apply list_elem_of_In, list_elem_of_lookup; eauto].
    apply bool_decide_eq_false in Hfind. destruct Hfind. by apply Hids. }
  assert (Hrecs' : Forall2 (fun r d => DetectionCreate_of_row r = inr d)
                     (rows s') (<[i := with_gemini_analysis analysis d]> recs)).
  { rewrite Hs'. simpl. apply Forall2_lookup. intros j.
    rewrite list_lookup_fmap.
    destruct (decide (i = j)) as [<-|Hij].
    - rewrite Hri, list_lookup_insert_eq by (by eapply lookup_lt_Some).
      constructor. apply DetectionCreate_of_row_set_analysis; [|done].
      by apply Hids.
    - rewrite list_lookup_insert_ne by done.
      pose proof (proj1 (Forall2_lookup _ _ _) Hrecs j) as Hj.
      destruct (rows s !! j) as [rj|] eqn:Hrj;
        inversion Hj as [rj' dj Hdj|]; subst; constructor.
      unfold set_row_analysis. rewrite bool_decide_eq_false_2; [done|].
      rewrite (Hids j rj Hrj). intros [= Heq]. lia. }
  rewrite (records_Forall2 _ _ Hrecs'). split; [done|].
  intros env' limit Hq' Hlimit.
  rewrite get_detections_cases, Hq'. cbv zeta. change (Z.to_nat 0) with 0.
  destruct (Z.ltb_spec limit 0); [lia|]. rewrite drop_0.
  rewrite take_ge.
  - by rewrite (comprehension_Forall2 _ _ _ Hrecs').
  - rewrite Hs'. simpl. rewrite length_fmap. lia.
Qed.

End UpdateList.

Lemma two_store_reachable : reachable two_store.
Proof. apply reachable_create, car_store_reachable. Defined.

Lemma update_then_list_witness :
  records (get_db (update_gemini_analysis (quiet 200) 2 "a wet street")
             two_store).2 =
  [car; with_gemini_analysis "a wet street" scene].
Proof.
  exact (proj1 (update_then_list (quiet 200) two_store 1 "a wet street" scene
                  two_store_reachable eq_refl eq_refl eq_refl)).
Defined.

(** X7: the last writer wins.  On any store, when the store does not
    fail, two updates of the same id end as the second alone would: with
    the same answer and the same stored rows. *)
Theorem update_last_writer_wins env1 env2 s detection_id analysis1 analysis2 :
  fault env1 db_query = None ->
  fault env1 db_commit = None ->
  fault env2 db_query = None ->
  fault env2 db_commit = None ->
  get_db (update_gemini_analysis env2 detection_id analysis2)
    (get_db (update_gemini_analysis env1 detection_id analysis1) s).2 =
  get_db (update_gemini_analysis env2 detection_id analysis2) s.
Proof.
  intros Hq1 Hc1 Hq2 Hc2.
  rewrite (update_gemini_analysis_store env1) by done.
  destruct (List.find _ (rows s)) as [r|] eqn:Hfind; [|done].
  unfold snd. rewrite !(update_gemini_analysis_store env2) by done.
  simpl. rewrite find_id_fmap by apply set_row_analysis_id.
  rewrite Hfind. simpl. do 2 f_equal.
  rewrite <- list_fmap_compose. apply list_fmap_ext. intros _ r' _. simpl.
  unfold set_row_analysis. simpl. by repeat case_bool_decide.
Qed.

Lemma update_last_writer_wins_witness :
  get_db (update_gemini_analysis (quiet 300) 1 "a green car")
    (get_db (update_gemini_analysis (quiet 200) 1 "a blue car") two_store).2 =
  get_db (update_gemini_analysis (quiet 300) 1 "a green car") two_store.
Proof.
  apply (update_last_writer_wins (quiet 200) (quiet 300) two_store 1
           "a blue car" "a green car"); reflexivity.
Defined.

(** X8: updates of different ids do not interfere.  On any store, when
    the store does not fail, two updates of different ids leave the same
    rows in either order. *)
Theorem update_different_ids_commute env1 env2 s id1 id2 analysis1 analysis2 :
  id1 <> id2 ->
  fault env1 db_query = None ->
  fault env1 db_commit = None ->
  fault env2 db_query = None ->
  fault env2 db_commit = None ->
  (get_db (update_gemini_analysis env2 id2 analysis2)
     (get_db (update_gemini_analysis env1 id1 analysis1) s).2).2 =
  (get_db (update_gemini_analysis env1 id1 analysis1)
     (get_db (update_gemini_analysis env2 id2 analysis2) s).2).2.
Proof.
  intros Hne Hq1 Hc1 Hq2 Hc2.
  rewrite (update_gemini_analysis_store env1 id1 _ s) by done.
  rewrite (update_gemini_analysis_store env2 id2 _ s) by done.
  destruct (List.find _ (rows s)) as [r1|] eqn:Hfind1;
    destruct (List.find (fun r => bool_decide (Detection.id r = Some id2))
                (rows s)) as [r2|] eqn:Hfind2;
    unfold snd;
    rewrite ?(update_gemini_analysis_store env1), ?(update_gemini_analysis_store env2)
      by done;
    simpl; rewrite ?find_id_fmap by apply set_row_analysis_id;
    rewrite ?Hfind1, ?Hfind2; simpl; try done.
  f_equal. rewrite <- !list_fmap_compose. apply list_fmap_ext.
  intros _ r _. simpl. unfold set_row_analysis. simpl.
  repeat case_bool_decide; simpl in *; congruence.
Qed.

Lemma update_different_ids_commute_witness :
  (get_db (update_gemini_analysis (quiet 300) 2 "a wet street")
     (get_db (update_gemini_analysis (quiet 200) 1 "a blue car") two_store).2).2 =
  (get_db (update_gemini_analysis (quiet 200) 1 "a blue car")
     (get_db (update_gemini_analysis (quiet 300) 2 "a wet street") two_store).2).2.
Proof.
  apply (update_different_ids_commute (quiet 200) (quiet 300) two_store 1 2
           "a blue car" "a wet street"); [discriminate|reflexivity..].
Defined.

(** ** More on [get_detections] *)

Section ListMore.
Context {V : FieldValidators}.

Lemma comprehension_inr {A B : Type} (f : A -> result B) l k :
  comprehension f l = inr k -> Forall2 (fun a b => f a = inr b) l k.
Proof.
  revert k. induction l as [|a l IH]; intros k; simpl.
  - intros [= <-]. constructor.
  - destruct (f a) as [|b] eqn:Hb; [done|]. simpl.
    destruct (comprehension f l) as [|k']; [done|]. simpl.
    intros [= <-]. constructor; [done|by apply IH].
Qed.

Lemma get_detections_all env s (limit : Z) :
  Forall row_ok (rows s) ->
  fault env db_query = None ->
  (Z.of_nat (length (rows s)) <= limit)%Z ->
  get_db (get_detections env 0 limit) s = (Return (records s), s).
Proof.
  intros Hok Hq Hlimit.
  destruct (comprehension_page s 0 (Z.to_nat limit) Hok) as (Hlen & _ & Hpage).
  rewrite get_detections_cases, Hq. cbv zeta. change (Z.to_nat 0) with 0.
  destruct (Z.ltb_spec limit 0); [lia|].
  rewrite Hpage, drop_0, take_ge; [done|lia].
Qed.

(** X12: a create adds one record at the end of what a list returns and
    changes none of the records listed before it. *)
Theorem create_keeps_earlier_records env env' s d (limit : Z) :
  reachable s ->
  fault env db_add = None ->
  fault env db_commit = None ->
  fault env db_refresh = None ->
  fault env' db_query = None ->
  (Z.of_nat (length (rows s)) < limit)%Z ->
  let s' := (get_db (create_detection env d) s).2 in
  exists l,
    get_db (get_detections env' 0 limit) s = (Return l, s) /\
    get_db (get_detections env' 0 limit) s' = (Return (l ++ [stored d]), s') /\
    length l = length (rows s).
Proof.
  intros Hs Ha Hc Hr Hq Hlimit s'.
  destruct (create_then_list_all env env' s d limit Hs Ha Hc Hr Hq Hlimit)
    as (Hlen & _ & Hlist).
  exists (records s). split_and!; [|done..].
  apply get_detections_all; [by apply reachable_rows_ok|done|lia].
Qed.

Lemma records_stored s e :
  Forall row_ok (rows s) -> e ∈ records s -> stored e = e.
Proof.
  intros Hok He. destruct (rows_ok_Forall2 _ Hok) as [recs Hrecs].
  rewrite (records_Forall2 _ _ Hrecs) in He.
  apply list_elem_of_lookup in He as [i Hi].
  destruct (Forall2_lookup_r _ _ _ i e Hrecs Hi) as (r & Hr & Hre).
  rewrite Forall_forall in Hok.
  destruct (Hok r) as [[b Hb] [objs Hobjs]];
    [apply list_elem_of_lookup; eauto|].
  destruct r as [id ts c conf rb ro g]. simpl in *. subst rb ro.
  rewrite DetectionCreate_of_row_shape in Hre. injection Hre as <-.
  by destruct objs as [[|obj objs]|].
Qed.

(** X9: a record that a list returned can be posted back as it is: it is
    stored without any change, so the next list ends with that very
    record. *)
Theorem listed_record_replays env env' s e (limit : Z) :
  reachable s ->
  e ∈ records s ->
  fault env db_add = None ->
  fault env db_commit = None ->
  fault env db_refresh = None ->
  fault env' db_query = None ->
  (Z.of_nat (length (rows s)) < limit)%Z ->
  DetectionCreate.objects e <> Some [] /\
  let s' := (get_db (create_detection env e) s).2 in
  get_db (get_detections env' 0 limit) s' = (Return (records s ++ [e]), s').
Proof.
  intros Hs He Ha Hc Hr Hq Hlimit.
  pose proof (records_stored s e (reachable_rows_ok s Hs) He) as Hstored.
  split.
  - intros Hobjs. rewrite <- Hstored in Hobjs. unfold stored in Hobjs.
    simpl in Hobjs. by destruct (DetectionCreate.objects e) as [[|]|].
  - intros s'.
    destruct (create_then_list_all env env' s e limit Hs Ha Hc Hr Hq Hlimit)
      as (_ & _ & Hlist).
    fold s' in Hlist. by rewrite Hstored in Hlist.
Qed.

(** X10: consecutive pages fit together.  On a reachable store the page
    of [m1] records from [k] followed by the page of [m2] records from
    [k + m1] is the page of [m1 + m2] records from [k]: no record is
    skipped or given twice. *)
Theorem get_detections_pages_concat env s (k m1 m2 : Z) :
  reachable s ->
  fault env db_query = None ->
  (0 <= k)%Z -> (0 <= m1)%Z -> (0 <= m2)%Z ->
  exists l1 l2,
    get_db (get_detections env k m1) s = (Return l1, s) /\
    get_db (get_detections env (k + m1) m2) s = (Return l2, s) /\
    get_db (get_detections env k (m1 + m2)) s = (Return (l1 ++ l2), s).
Proof.
  intros Hs Hq Hk Hm1 Hm2. apply reachable_rows_ok in Hs.
  exists (take (Z.to_nat m1) (drop (Z.to_nat k) (records s))),
         (take (Z.to_nat m2) (drop (Z.to_nat (k + m1)) (records s))).
  rewrite !get_detections_cases, Hq. cbv zeta.
  destruct (Z.ltb_spec m1 0); [lia|].
  destruct (Z.ltb_spec m2 0); [lia|].
  destruct (Z.ltb_spec (m1 + m2) 0); [lia|].
  rewrite (proj2 (proj2 (comprehension_page s (Z.to_nat k) (Z.to_nat m1) Hs))).
  rewrite (proj2 (proj2 (comprehension_page s (Z.to_nat (k + m1))
                           (Z.to_nat m2) Hs))).
  rewrite (proj2 (proj2 (comprehension_page s (Z.to_nat k)
                           (Z.to_nat (m1 + m2)) Hs))).
  split_and!; [done..|]. do 2 f_equal.
  rewrite !Z2Nat.inj_add by lia.
  by rewrite <- drop_drop, take_take_drop.
Qed.

(** X11: a list is all or nothing.  On any table, when the query itself
    does not fail, [get_detections] returns the records of the selected
    rows if every one of them can be rebuilt, and otherwise raises
    [HTTPException(500)] with the text of an exception met on one of
    them; it never returns a partial page. *)
Theorem get_detections_all_or_nothing env s (k m : Z) :
  fault env db_query = None ->
  (0 <= k)%Z -> (0 <= m)%Z ->
  (exists l,
     get_db (get_detections env k m) s = (Return l, s) /\
     Forall2 (fun r d => DetectionCreate_of_row r = inr d) (page_rows k m s) l) \/
  (exists r e,
     r ∈ page_rows k m s /\
     DetectionCreate_of_row r = inl e /\
     get_db (get_detections env k m) s = (HTTPException 500 (str e), s)).
Proof.
  intros Hq Hk Hm. rewrite get_detections_cases, Hq. cbv zeta.
  destruct (Z.ltb_spec m 0); [lia|]. fold (page_rows k m s).
  generalize (page_rows k m s). intros l.
  destruct (comprehension DetectionCreate_of_row l) as [e|recs] eqn:Hl.
  - right. revert Hl. induction l as [|r l IH]; [done|]. simpl.
    destruct (DetectionCreate_of_row r) as [e'|d] eqn:Hr; simpl.
    + intros [= <-]. exists r, e'. split_and!; [by left|done..].
    + destruct (comprehension DetectionCreate_of_row l) as [e'|]; [|done].
      simpl. intros [= <-].
      destruct (IH eq_refl) as (r' & e'' & Hin & Hr' & Heq).
      exists r', e''. split_and!; [by right|done..].
  - left. exists recs. split; [done|]. by apply comprehension_inr.
Qed.

End ListMore.

Lemma create_keeps_earlier_records_witness :
  exists l,
    get_db (get_detections (quiet 200) 0 100) car_store = (Return l, car_store) /\
    get_db (get_detections (quiet 200) 0 100) two_store =
      (Return (l ++ [stored scene]), two_store) /\
    length l = length (rows car_store).
Proof.
  apply (create_keeps_earlier_records (quiet 150) (quiet 200) car_store scene
           100 car_store_reachable eq_refl eq_refl eq_refl eq_refl).
  reflexivity.
Defined.

Lemma car_listed : car ∈ records car_store.
Proof. change (car ∈ [car]). apply list_elem_of_here. Defined.

Lemma listed_record_replays_witness :
  DetectionCreate.objects car <> Some [] /\
  get_db (get_detections (quiet 200) 0 100)
    (get_db (create_detection (quiet 150) car) car_store).2 =
  (Return (records car_store ++ [car]),
   (get_db (create_detection (quiet 150) car) car_store).2).
Proof.
  apply (listed_record_replays (quiet 150) (quiet 200) car_store car 100
           car_store_reachable car_listed eq_refl eq_refl eq_refl eq_refl).
  reflexivity.
Defined.

Lemma get_detections_pages_concat_witness :
  exists l1 l2,
    get_db (get_detections (quiet 200) 0 1) two_store = (Return l1, two_store) /\
    get_db (get_detections (quiet 200) (0 + 1) 1) two_store =
      (Return l2, two_store) /\
    get_db (get_detections (quiet 200) 0 (1 + 1)) two_store =
      (Return (l1 ++ l2), two_store).
Proof.
  apply (get_detections_pages_concat (quiet 200) two_store 0 1 1
           two_store_reachable eq_refl); discriminate.
Defined.

Lemma get_detections_all_or_nothing_witness :
  (exists l,
     get_db (get_detections (quiet 200) 0 10) broken_store =
       (Return l, broken_store) /\
     Forall2 (fun r d => DetectionCreate_of_row r = inr d)
       (page_rows 0 10 broken_store) l) \/
  (exists r e,
     r ∈ page_rows 0 10 broken_store /\
     DetectionCreate_of_row r = inl e /\
     get_db (get_detections (quiet 200) 0 10) broken_store =
       (HTTPException 500 (str e), broken_store)).
Proof.
  apply (get_detections_all_or_nothing (quiet 200) broken_store 0 10 eq_refl);
    discriminate.
Defined.

(** A record with an infinite [confidence] is accepted and stored, and
    the response cannot be rendered. *)
Lemma post_detections_infinity :
  post_detections (quiet 100) (DetectionCreate_json boundless) initial_store =
  (Unhandled (ValueError "Out of range float values are not JSON compliant"),
   {| rows := [Detection.mk (Some 1%Z) (Some 100%Z) "car" PrimFloat.infinity
                 (BoundingBox_dict (BoundingBox.mk 10 20 30 40)) JNull
                 "a red car"];
      next_id := 2 |}).
Proof. by vm_compute. Qed.
